(** * Verification of [src/llm/prompts.py]

    The module has three functions: [_load_template] reads a template
    file below [TEMPLATES_ROOT_PATH], [_extract_input_variables] collects
    the brace-delimited placeholders of a template with the regular
    expression [\{(.*?)\}], and [get_prompt] wraps the template and its
    placeholders in a chat prompt.

    Python strings are modelled as [string]; an optional argument with
    default [None] as [option string]; the file system as a finite map
    from paths to what reading the path does; logging and file access as
    a trace of events; exceptions as an error result. *)

From Stdlib Require Import Ascii String List Arith Lia.
From stdpp Require Import base strings list gmap.

(** ** Characters *)

Definition newline : ascii := "010"%char.
Definition lbrace : ascii := "{"%char.
Definition rbrace : ascii := "}"%char.

(** ** A backtracking matcher for the fragment of [re] the module uses

    [Chr c] is an escaped or ordinary character, [Dot] is [.] without
    [re.DOTALL] (every character except the newline), [Seq] is
    juxtaposition, [LazyStar r] is [r*?], [Group r] is a capturing
    group [(r)]. *)

Inductive regex : Type :=
| Chr (c : ascii)
| Dot
| Seq (r1 r2 : regex)
| LazyStar (r : regex)
| Group (r : regex).

(** [drop_suffix s s'] is the part of [s] in front of its suffix [s'],
    the text consumed by a matcher that was started on [s] and has [s']
    left. *)
Fixpoint string_take (n : nat) (s : string) : string :=
  match n, s with
  | S n', String c s' => String c (string_take n' s')
  | _, _ => EmptyString
  end.

Definition drop_suffix (s s' : string) : string :=
  string_take (String.length s - String.length s') s.

(** The matcher is written in continuation-passing style: [k] receives
    the rest of the input and the groups captured so far, and answers
    [None] to make the matcher backtrack. *)
Definition matcher (A : Type) : Type :=
  string -> list string -> (string -> list string -> option A) -> option A.

(** A lazy star over the matcher [m] of its body: it first tries the
    continuation and only then one more iteration. An iteration that
    consumes nothing is cut off, so [String.length s] iterations are
    enough. *)
Fixpoint lazy_loop {A : Type} (m : matcher A) (fuel : nat) (s : string)
    (caps : list string) (k : string -> list string -> option A) : option A :=
  match k s caps with
  | Some a => Some a
  | None =>
      match fuel with
      | O => None
      | S fuel' =>
          m s caps (fun s1 caps1 =>
            if Nat.ltb (String.length s1) (String.length s)
            then lazy_loop m fuel' s1 caps1 k else None)
      end
  end.

Fixpoint re_match_k {A : Type} (r : regex) : matcher A :=
  match r with
  | Chr c => fun s caps k =>
      match s with
      | String x s' => if Ascii.eqb x c then k s' caps else None
      | EmptyString => None
      end
  | Dot => fun s caps k =>
      match s with
      | String x s' => if Ascii.eqb x newline then None else k s' caps
      | EmptyString => None
      end
  | Seq r1 r2 => fun s caps k =>
      re_match_k r1 s caps (fun s1 caps1 => re_match_k r2 s1 caps1 k)
  | Group r1 => fun s caps k =>
      re_match_k r1 s caps (fun s1 caps1 => k s1 (caps1 ++ [drop_suffix s s1]))
  | LazyStar r1 => fun s caps k =>
      lazy_loop (re_match_k r1) (String.length s) s caps k
  end.

(** [re_match r s]: a match of [r] anchored at the start of [s]; the
    number of characters of the match and its groups. *)
Definition re_match (r : regex) (s : string) : option (nat * list string) :=
  re_match_k r s [] (fun s' caps => Some (String.length s - String.length s', caps)).

(** [re.findall] for a pattern with one group: the non-overlapping
    matches from left to right, each reported by its group 1. After a
    match the scan resumes behind it; [skip] counts the characters of the
    last match that are still to be passed over. A match is also tried at
    the end of the text. (After an empty match the scan moves on by one
    character; the pattern of this module has no empty match.) *)
Fixpoint findall_from (r : regex) (s : string) (skip : nat) : list string :=
  match skip with
  | S skip' =>
      match s with
      | String _ s' => findall_from r s' skip'
      | EmptyString => []
      end
  | O =>
      match re_match r s with
      | Some (n, caps) =>
          nth 0 caps EmptyString ::
          match s with
          | String _ s' => findall_from r s' (Nat.pred n)
          | EmptyString => []
          end
      | None =>
          match s with
          | String _ s' => findall_from r s' 0
          | EmptyString => []
          end
      end
  end.

Definition re_findall (r : regex) (s : string) : list string :=
  findall_from r s 0.

(** ** [_extract_input_variables] *)

(** [pattern = r'\{(.*?)\}'] *)
Definition pattern : regex :=
  Seq (Chr lbrace) (Seq (Group (LazyStar Dot)) (Chr rbrace)).

Definition _extract_input_variables (template : string) : list string :=
  let placeholders := re_findall pattern template in
  placeholders.

(** ** Brace-delimited spans, read off the text of the specification

    The scanners below do not go through the regular expression. They
    read the template once, from left to right; the state is [None]
    outside a span and [Some inner] after an opening brace, with the text
    met since then. *)

Definition snoc (s : string) (c : ascii) : string := s +:+ String c EmptyString.

(** Every minimal span delimited by [{] and [}]: any characters, as few
    as possible, possibly none, between an opening brace and the first
    closing brace after it. *)
Fixpoint brace_scan (st : option string) (s : string) : list string :=
  match s with
  | EmptyString => []
  | String c s' =>
      match st with
      | None => if Ascii.eqb c lbrace then brace_scan (Some EmptyString) s'
                else brace_scan None s'
      | Some inner =>
          if Ascii.eqb c rbrace then inner :: brace_scan None s'
          else brace_scan (Some (snoc inner c)) s'
      end
  end.

Definition brace_spans (template : string) : list string := brace_scan None template.

(** The same scan with spans kept to one line: a newline met inside a
    span abandons it. *)
Fixpoint line_scan (st : option string) (s : string) : list string :=
  match s with
  | EmptyString => []
  | String c s' =>
      match st with
      | None => if Ascii.eqb c lbrace then line_scan (Some EmptyString) s'
                else line_scan None s'
      | Some inner =>
          if Ascii.eqb c rbrace then inner :: line_scan None s'
          else if Ascii.eqb c newline then line_scan None s'
          else line_scan (Some (snoc inner c)) s'
      end
  end.

Definition line_spans (template : string) : list string := line_scan None template.

(** The number of one-line spans, counted without building them:
    [opened] tells whether an opening brace is pending on the current
    line. *)
Fixpoint count_line_spans_from (opened : bool) (s : string) : nat :=
  match s with
  | EmptyString => 0
  | String c s' =>
      if opened then
        if Ascii.eqb c rbrace then S (count_line_spans_from false s')
        else if Ascii.eqb c newline then count_line_spans_from false s'
        else count_line_spans_from true s'
      else count_line_spans_from (Ascii.eqb c lbrace) s'
  end.

Definition count_line_spans (template : string) : nat :=
  count_line_spans_from false template.

Fixpoint mem_char (c : ascii) (s : string) : bool :=
  match s with
  | EmptyString => false
  | String x s' => Ascii.eqb x c || mem_char c s'
  end.

(** What the pattern does behind an opening brace: the text up to the
    first closing brace and the rest behind that brace, unless a newline
    or the end of the text comes first. *)
Fixpoint until_close (s : string) : option (string * string) :=
  match s with
  | EmptyString => None
  | String c s' =>
      if Ascii.eqb c rbrace then Some (EmptyString, s')
      else if Ascii.eqb c newline then None
      else match until_close s' with
           | Some (inner, rest) => Some (String c inner, rest)
           | None => None
           end
  end.

(** ** Exceptions, the file system, logging *)

Inductive exn_class : Type :=
| FileNotFoundError
| PermissionError
| IsADirectoryError
| UnicodeDecodeError
| OSError
| ValueError.

(** An exception object: its class and [str(e)]. *)
Record exn : Type := Exn { exn_cls : exn_class; exn_str : string }.

Global Instance exn_class_eq_dec : EqDecision exn_class.
Proof. solve_decision. Defined.

(** What [open(path, "r")] followed by [read()] does at a path that is
    present: it yields the whole content or raises. A path that is not
    in the map does not exist. *)
Inductive node : Type :=
| Readable (content : string)
| Unreadable (e : exn).

Inductive level : Type := INFO | ERROR.

Inductive event : Type :=
| EvOpen (path : string)
| EvLog (lvl : level) (msg : string).

Definition is_open (ev : event) : bool :=
  match ev with EvOpen _ => true | EvLog _ _ => false end.

(** The computations of the module: they read the file system, leave a
    trace of file accesses and log records, and return or raise. *)
Definition M (A : Type) : Type := gmap string node -> list event * (exn + A).

Definition ret {A} (a : A) : M A := fun _ => ([], inr a).

Definition bind {A B} (m : M A) (f : A -> M B) : M B :=
  fun fs =>
    match m fs with
    | (t1, inl e) => (t1, inl e)
    | (t1, inr a) => let '(t2, r) := f a fs in (t1 ++ t2, r)
    end.

Definition raise {A} (e : exn) : M A := fun _ => ([], inl e).

(** [try: m except e: h e] *)
Definition try_except {A} (m : M A) (h : exn -> M A) : M A :=
  fun fs =>
    match m fs with
    | (t1, inl e) => let '(t2, r) := h e fs in (t1 ++ t2, r)
    | (t1, inr a) => (t1, inr a)
    end.

Declare Scope prompts_scope.
Delimit Scope prompts_scope with prompts.
Notation "x <- m ;; k" := (bind m (fun x => k))
  (at level 100, m at next level, right associativity) : prompts_scope.
Notation "m ;; k" := (bind m (fun _ => k))
  (at level 100, right associativity) : prompts_scope.
Local Open Scope prompts_scope.

Definition file_not_found (path : string) : exn :=
  Exn FileNotFoundError ("[Errno 2] No such file or directory: '" +:+ path +:+ "'").

(** [with open(path, "r") as file: file.read()] *)
Definition open_read (path : string) : M string :=
  fun fs =>
    ([EvOpen path],
     match fs !! path with
     | None => inl (file_not_found path)
     | Some (Readable content) => inr content
     | Some (Unreadable e) => inl e
     end).

Definition logging_info (msg : string) : M unit := fun _ => ([EvLog INFO msg], inr tt).
Definition logging_error (msg : string) : M unit := fun _ => ([EvLog ERROR msg], inr tt).

(** ** [os.path.join] (posixpath), for two components *)

Definition sep : ascii := "/"%char.

Fixpoint ends_with_sep (s : string) : bool :=
  match s with
  | EmptyString => false
  | String c EmptyString => Ascii.eqb c sep
  | String _ s' => ends_with_sep s'
  end.

Definition starts_with_sep (s : string) : bool :=
  match s with
  | String c _ => Ascii.eqb c sep
  | EmptyString => false
  end.

Definition os_path_join (a b : string) : string :=
  if starts_with_sep b then b
  else if (String.length a =? 0) || ends_with_sep a then a +:+ b
  else a +:+ String sep b.

(** ** [_load_template] *)

Definition TEMPLATES_ROOT_PATH : string := "templates".

Definition _load_template (template_name : string) : M string :=
  let file_name := "template_" +:+ template_name +:+ ".txt" in
  let template_path := os_path_join TEMPLATES_ROOT_PATH file_name in
  try_except
    (template <- open_read template_path ;;
     logging_info ("Template " +:+ template_name +:+ " loaded successfully.") ;;
     ret template)
    (fun e =>
       if decide (exn_cls e = FileNotFoundError) then
         logging_error ("Template file not found: " +:+ template_path) ;;
         raise e
       else
         logging_error ("Error loading template " +:+ template_name +:+ ": " +:+ exn_str e) ;;
         raise e).

(** ** The prompt objects of langchain *)

(** Modelled from the spec: langchain's [PromptTemplate],
    [HumanMessagePromptTemplate] and [ChatPromptTemplate] are not part of
    the module. The prompt object is a composite value that holds the
    resolved template text and its placeholder list, wrapped as a single
    conversational turn; the constructors store what they are given. *)
Record PromptTemplate : Type :=
  mkPromptTemplate { pt_template : string; pt_input_variables : list string }.

Record HumanMessagePromptTemplate : Type :=
  mkHumanMessagePromptTemplate { hm_prompt : PromptTemplate }.

Record ChatPromptTemplate : Type :=
  ChatPromptTemplate_from_messages { messages : list HumanMessagePromptTemplate }.

(** ** [get_prompt] *)

(** Truth value of an optional string: [None] and the empty string are
    false. *)
Definition truthy (o : option string) : bool :=
  match o with
  | None => false
  | Some EmptyString => false
  | Some (String _ _) => true
  end.

Definition get_prompt (template_name template : option string) : M ChatPromptTemplate :=
  template <-
    (if truthy template_name then
       _load_template (default EmptyString template_name)
     else if negb (truthy template) then
       raise (Exn ValueError "Either template_name or template must be provided.")
     else ret (default EmptyString template)) ;;
  let input_variables := _extract_input_variables template in
  let human_message_prompt_template :=
    mkHumanMessagePromptTemplate
      (mkPromptTemplate template input_variables) in
  let combined_prompt_template :=
    ChatPromptTemplate_from_messages [human_message_prompt_template] in
  ret combined_prompt_template.

(** The prompt built from a template text. *)
Definition prompt_of (template : string) : ChatPromptTemplate :=
  ChatPromptTemplate_from_messages
    [mkHumanMessagePromptTemplate
       (mkPromptTemplate template (_extract_input_variables template))].

(** The template text and the placeholder list a prompt holds. *)
Definition prompt_template_text (p : ChatPromptTemplate) : list string :=
  map (fun m => pt_template (hm_prompt m)) (messages p).

Definition prompt_placeholders (p : ChatPromptTemplate) : list (list string) :=
  map (fun m => pt_input_variables (hm_prompt m)) (messages p).

Definition template_path_of (template_name : string) : string :=
  "templates/template_" +:+ template_name +:+ ".txt".

Definition opened_paths (t : list event) : list string :=
  flat_map (fun ev => match ev with EvOpen p => [p] | EvLog _ _ => [] end) t.

Definition error_logs (t : list event) : list string :=
  flat_map (fun ev => match ev with EvLog ERROR m => [m] | _ => [] end) t.

(** A computation returns a prompt that holds the template text [t]. *)
Definition returns_prompt_with_text
    (r : list event * (exn + ChatPromptTemplate)) (t : string) : Prop :=
  exists p, snd r = inr p /\ prompt_template_text p = [t].

(** [str(e)] of the [ValueError] of [get_prompt]. *)
Definition nothing_provided : exn :=
  Exn ValueError "Either template_name or template must be provided.".

(** The text of the greeting example. *)
Definition greeting : string := "Hello {name}, welcome to {place}!".

(** A template whose only braces enclose a newline. *)
Definition two_line_span : string :=
  String lbrace (String "a" (String newline (String "b" (String rbrace EmptyString)))).

(** The record of a failed load. *)
Definition load_error_message (template_name : string) (e : exn) : string :=
  if decide (exn_cls e = FileNotFoundError)
  then "Template file not found: " +:+ template_path_of template_name
  else "Error loading template " +:+ template_name +:+ ": " +:+ exn_str e.

(** A file system in which the template file of the empty identifier
    holds [content]. *)
Definition fs_unnamed_file (content : string) : gmap string node :=
  {[ template_path_of EmptyString := Readable content ]}.

(** What a permission failure of the read raises. *)
Definition permission_denied : exn :=
  Exn PermissionError "[Errno 13] Permission denied: 'templates/template_locked.txt'".

(** ** Vocabulary for further properties *)

(** A flat template: literal segments that alternate with placeholders,
    [lit1 {name1} lit2 {name2} ... tail]. *)
Fixpoint flat_template (parts : list (string * string)) (tail : string) : string :=
  match parts with
  | [] => tail
  | (lit, name) :: parts' =>
      lit +:+ String lbrace (name +:+ String rbrace (flat_template parts' tail))
  end.

(** The literal segments hold no opening brace, the names neither a
    closing brace nor a newline. *)
Definition flat_parts_ok (parts : list (string * string)) (tail : string) : bool :=
  forallb (fun part =>
             negb (mem_char lbrace (fst part))
             && negb (mem_char rbrace (snd part))
             && negb (mem_char newline (snd part))) parts
  && negb (mem_char lbrace tail).

Fixpoint total_length (l : list string) : nat :=
  match l with
  | [] => 0
  | s :: l' => String.length s + total_length l'
  end.

(** What is pending in the state of a scan: the opening brace and the
    text met since. *)
Definition pending (st : option string) : nat :=
  match st with
  | Some inner => S (String.length inner)
  | None => 0
  end.

(** A call of [get_prompt] returns a prompt. *)
Definition succeeds {A} (r : list event * (exn + A)) : bool :=
  match snd r with inr _ => true | inl _ => false end.


Definition info_logs (t : list event) : list string :=
  flat_map (fun ev => match ev with EvLog INFO m => [m] | _ => [] end) t.

(** * Proofs *)

(** ** Strings *)

Lemma string_app_nil_l (s : string) : EmptyString +:+ s = s.
Proof. reflexivity. Qed.

Lemma string_app_cons (c : ascii) (a b : string) :
  String c a +:+ b = String c (a +:+ b).
Proof. reflexivity. Qed.

Lemma string_app_nil_r (s : string) : s +:+ EmptyString = s.
Proof.
  induction s as [|c s IH]; [reflexivity|].
  by rewrite string_app_cons, IH.
Qed.

Lemma string_app_assoc (a b c : string) : (a +:+ b) +:+ c = a +:+ (b +:+ c).
Proof.
  induction a as [|x a IH]; [reflexivity|].
  by rewrite !string_app_cons, IH.
Qed.

Lemma string_app_length (a b : string) :
  String.length (a +:+ b) = String.length a + String.length b.
Proof.
  induction a as [|x a IH]; [reflexivity|].
  rewrite string_app_cons. cbn [String.length]. by rewrite IH.
Qed.

Lemma snoc_app (p : string) (c : ascii) (u : string) :
  snoc p c +:+ u = p +:+ String c u.
Proof. unfold snoc. by rewrite string_app_assoc. Qed.

Lemma string_take_app (p u : string) :
  string_take (String.length p) (p +:+ u) = p.
Proof.
  induction p as [|x p IH]; [by destruct u|].
  rewrite string_app_cons. cbn [String.length string_take]. by rewrite IH.
Qed.

Lemma drop_suffix_app (p u : string) : drop_suffix (p +:+ u) u = p.
Proof.
  unfold drop_suffix. rewrite string_app_length.
  replace (String.length p + String.length u - String.length u)
    with (String.length p) by lia.
  apply string_take_app.
Qed.

(** ** The pattern, matched at one position *)

(** What [until_close] returns splits the text at its first closing
    brace, and the part in front has neither a closing brace nor a
    newline. *)
Lemma until_close_split (s inner rest : string) :
  until_close s = Some (inner, rest) ->
  s = inner +:+ String rbrace rest
  /\ mem_char rbrace inner = false /\ mem_char newline inner = false.
Proof.
  revert inner rest. induction s as [|c s IH]; intros inner rest H; cbn in H.
  - discriminate.
  - destruct (Ascii.eqb c rbrace) eqn:Hr.
    + apply Ascii.eqb_eq in Hr. injection H as <- <-. by subst c.
    + destruct (Ascii.eqb c newline) eqn:Hn; [discriminate|].
      destruct (until_close s) as [[i r]|] eqn:Hu; [|discriminate].
      injection H as <- <-. destruct (IH i r eq_refl) as (-> & H1 & H2).
      cbn. rewrite Hr, Hn, H1, H2. by split.
Qed.

Lemma lazy_loop_unfold {A} (m : matcher A) fuel s caps k :
  lazy_loop m fuel s caps k =
  match k s caps with
  | Some a => Some a
  | None =>
      match fuel with
      | O => None
      | S fuel' =>
          m s caps (fun s1 caps1 =>
            if Nat.ltb (String.length s1) (String.length s)
            then lazy_loop m fuel' s1 caps1 k else None)
      end
  end.
Proof. destruct fuel; reflexivity. Qed.

Lemma re_match_k_Chr {A} c x s caps (k : string -> list string -> option A) :
  re_match_k (Chr c) (String x s) caps k =
  if Ascii.eqb x c then k s caps else None.
Proof. reflexivity. Qed.

Lemma re_match_k_Dot {A} x s caps (k : string -> list string -> option A) :
  re_match_k Dot (String x s) caps k =
  if Ascii.eqb x newline then None else k s caps.
Proof. reflexivity. Qed.

(** The lazy star over [.] followed by a closing brace, on the suffix
    [u] of a text [p +:+ u] in which the group started at [p +:+ u]:
    any fuel that covers [u] gives the split of [until_close]. *)
Lemma lazy_dot_close (L : nat) (u : string) :
  forall (p : string) (fuel : nat) (caps : list string),
    String.length u <= fuel ->
    lazy_loop (re_match_k Dot) fuel u caps
      (fun s1 caps1 =>
         re_match_k (Chr rbrace) s1 (caps1 ++ [drop_suffix (p +:+ u) s1])
           (fun s' caps' => Some (L - String.length s', caps')))
    = match until_close u with
      | Some (inner, rest) =>
          Some (L - String.length rest, caps ++ [p +:+ inner])
      | None => None
      end.
Proof.
  induction u as [|x u IH]; intros p fuel caps Hfuel.
  - destruct fuel; reflexivity.
  - rewrite lazy_loop_unfold, re_match_k_Chr. cbn [until_close].
    destruct (Ascii.eqb x rbrace) eqn:Hr.
    + by rewrite drop_suffix_app, string_app_nil_r.
    + destruct fuel as [|fuel]; [cbn in Hfuel; lia|].
      rewrite re_match_k_Dot.
      destruct (Ascii.eqb x newline) eqn:Hn; [reflexivity|].
      assert (Hlt : Nat.ltb (String.length u) (String.length (String x u)) = true)
        by (apply Nat.ltb_lt; cbn; lia).
      rewrite Hlt.
      specialize (IH (snoc p x) fuel caps ltac:(cbn in Hfuel; lia)).
      rewrite snoc_app in IH. rewrite IH.
      destruct (until_close u) as [[inner rest]|]; [|reflexivity].
      by rewrite snoc_app.
Qed.

(** The pattern matches at the start of [s] exactly when [s] opens with
    a brace that [until_close] can close; group 1 is the text in
    between. *)
Lemma re_match_pattern (s : string) :
  re_match pattern s =
  match s with
  | String c s1 =>
      if Ascii.eqb c lbrace then
        match until_close s1 with
        | Some (inner, rest) => Some (2 + String.length inner, [inner])
        | None => None
        end
      else None
  | EmptyString => None
  end.
Proof.
  destruct s as [|c s1]; [reflexivity|].
  change (re_match pattern (String c s1)) with
    (if Ascii.eqb c lbrace then
       lazy_loop (re_match_k Dot) (String.length s1) s1 []
         (fun s2 caps1 =>
            re_match_k (Chr rbrace) s2
              (caps1 ++ [drop_suffix (EmptyString +:+ s1) s2])
              (fun s' caps' =>
                 Some (String.length (String c s1) - String.length s', caps')))
     else None).
  destruct (Ascii.eqb c lbrace); [|reflexivity].
  rewrite (lazy_dot_close (String.length (String c s1)) s1 EmptyString
             (String.length s1) [] (le_n _)).
  destruct (until_close s1) as [[inner rest]|] eqn:Hu; [|reflexivity].
  apply until_close_split in Hu as (-> & _ & _).
  cbn [String.length app]. rewrite string_app_length. cbn [String.length].
  do 2 f_equal. lia.
Qed.

(** ** [re.findall] with the pattern is the one-line scan *)

Lemma findall_from_skip (r : regex) (a b : string) :
  findall_from r (a +:+ b) (String.length a) = findall_from r b 0.
Proof.
  induction a as [|x a IH]; [reflexivity|].
  rewrite string_app_cons. cbn [String.length findall_from]. exact IH.
Qed.

Lemma findall_from_0 (r : regex) (s : string) :
  findall_from r s 0 =
  match re_match r s with
  | Some (n, caps) =>
      nth 0 caps EmptyString ::
      match s with
      | String _ s' => findall_from r s' (Nat.pred n)
      | EmptyString => []
      end
  | None =>
      match s with
      | String _ s' => findall_from r s' 0
      | EmptyString => []
      end
  end.
Proof. destruct s; reflexivity. Qed.

(** A span that closes on its line is reported with what was met before
    it, and the scan goes on outside a span. *)
Lemma line_scan_close (u inner rest : string) :
  until_close u = Some (inner, rest) ->
  forall acc, line_scan (Some acc) u = (acc +:+ inner) :: line_scan None rest.
Proof.
  revert inner. induction u as [|c u IH]; intros inner H acc; cbn in H.
  - discriminate.
  - cbn [line_scan]. destruct (Ascii.eqb c rbrace).
    + injection H as <- <-. by rewrite string_app_nil_r.
    + destruct (Ascii.eqb c newline); [discriminate|].
      destruct (until_close u) as [[i r]|]; [|discriminate].
      injection H as <- <-. rewrite (IH i eq_refl). by rewrite snoc_app.
Qed.

(** Where no span can close before the line ends, the state of the scan
    does not matter. *)
Lemma line_scan_unclosed (u : string) :
  until_close u = None ->
  forall st st', line_scan st u = line_scan st' u.
Proof.
  induction u as [|c u IH]; intros H st st'; [reflexivity|].
  cbn in H. cbn [line_scan].
  destruct (Ascii.eqb c rbrace) eqn:Hr; [discriminate|].
  destruct (Ascii.eqb c newline) eqn:Hn.
  - apply Ascii.eqb_eq in Hn. subst c.
    destruct st, st'; reflexivity.
  - destruct (until_close u) as [[i r]|]; [discriminate|].
    destruct st, st'; destruct (Ascii.eqb c lbrace); by apply IH.
Qed.

Lemma findall_pattern_line_scan (n : nat) :
  forall s, String.length s <= n -> findall_from pattern s 0 = line_scan None s.
Proof.
  induction n as [|n IH]; intros s Hn.
  - destruct s; [reflexivity | cbn in Hn; lia].
  - rewrite findall_from_0, re_match_pattern.
    destruct s as [|c s1]; [reflexivity|].
    cbn [String.length] in Hn. cbn [line_scan].
    destruct (Ascii.eqb c lbrace); [|apply IH; lia].
    destruct (until_close s1) as [[inner rest]|] eqn:Hu.
    + rewrite (line_scan_close _ _ _ Hu). cbn [nth Nat.pred Nat.add].
      apply until_close_split in Hu as (-> & _ & _).
      rewrite <- snoc_app.
      replace (S (String.length inner)) with (String.length (snoc inner rbrace))
        by (unfold snoc; rewrite string_app_length; cbn; lia).
      rewrite findall_from_skip, string_app_nil_l. f_equal.
      apply IH. rewrite string_app_length in Hn. cbn in Hn. lia.
    + rewrite (line_scan_unclosed _ Hu (Some EmptyString) None). apply IH. lia.
Qed.

(** The extraction, which goes through the regular expression, is the
    one-pass scan for one-line spans. *)
Lemma extract_is_line_spans (template : string) :
  _extract_input_variables template = line_spans template.
Proof.
  unfold _extract_input_variables, re_findall, line_spans.
  by apply (findall_pattern_line_scan (String.length template)).
Qed.

(** ** Facts about the scans *)

Lemma line_scan_length (s : string) (st : option string) :
  length (line_scan st s) = count_line_spans_from (bool_decide (is_Some st)) s.
Proof.
  revert st. induction s as [|c s IH]; intros st; [reflexivity|].
  cbn [line_scan count_line_spans_from].
  destruct st as [inner|]; cbn [bool_decide].
  - rewrite bool_decide_eq_true_2 by eauto.
    destruct (Ascii.eqb c rbrace); [cbn; by rewrite IH|].
    destruct (Ascii.eqb c newline); rewrite IH; [reflexivity|].
    by rewrite bool_decide_eq_true_2 by eauto.
  - rewrite bool_decide_eq_false_2 by (by intros [? ?]).
    destruct (Ascii.eqb c lbrace); rewrite IH; [|reflexivity].
    by rewrite bool_decide_eq_true_2 by eauto.
Qed.

Lemma line_scan_no_newline (s : string) (st : option string) :
  mem_char newline s = false -> line_scan st s = brace_scan st s.
Proof.
  revert st. induction s as [|c s IH]; intros st H; [reflexivity|].
  cbn in H. apply orb_false_iff in H as [Hc Hs].
  cbn [line_scan brace_scan]. rewrite Hc.
  destruct st; repeat case_match; by rewrite ?IH.
Qed.

Lemma line_scan_no_close (s : string) (st : option string) :
  mem_char rbrace s = false -> line_scan st s = [].
Proof.
  revert st. induction s as [|c s IH]; intros st H; [reflexivity|].
  cbn in H. apply orb_false_iff in H as [Hc Hs].
  cbn [line_scan]. rewrite Hc.
  destruct st; repeat case_match; by apply IH.
Qed.

Lemma line_scan_app_no_close (p q : string) (st : option string) :
  mem_char rbrace q = false -> line_scan st (p +:+ q) = line_scan st p.
Proof.
  intros Hq. revert st. induction p as [|c p IH]; intros st.
  - rewrite string_app_nil_l. by apply line_scan_no_close.
  - rewrite string_app_cons. cbn [line_scan].
    destruct st; repeat case_match; by rewrite ?IH.
Qed.

(** ** [_load_template] and [get_prompt], evaluated *)

Lemma os_path_join_template (template_name : string) :
  os_path_join TEMPLATES_ROOT_PATH ("template_" +:+ template_name +:+ ".txt")
  = template_path_of template_name.
Proof. reflexivity. Qed.

Lemma load_template_eq (template_name : string) (fs : gmap string node) :
  _load_template template_name fs =
  let path := template_path_of template_name in
  match fs !! path with
  | Some (Readable content) =>
      ([EvOpen path;
        EvLog INFO ("Template " +:+ template_name +:+ " loaded successfully.")],
       inr content)
  | Some (Unreadable e) =>
      ([EvOpen path; EvLog ERROR (load_error_message template_name e)], inl e)
  | None =>
      ([EvOpen path; EvLog ERROR (load_error_message template_name (file_not_found path))],
       inl (file_not_found path))
  end.
Proof.
  unfold _load_template. rewrite os_path_join_template.
  unfold try_except, bind, open_read, load_error_message. cbn zeta.
  destruct (fs !! template_path_of template_name) as [[content|e]|].
  - reflexivity.
  - destruct (decide (exn_cls e = FileNotFoundError)); reflexivity.
  - reflexivity.
Qed.

Lemma get_prompt_named (template_name : string) (template : option string)
    (fs : gmap string node) :
  template_name <> EmptyString ->
  get_prompt (Some template_name) template fs =
  match _load_template template_name fs with
  | (t, inl e) => (t, inl e)
  | (t, inr text) => (t ++ [], inr (prompt_of text))
  end.
Proof.
  intros Hne. destruct template_name as [|c n]; [congruence|].
  unfold get_prompt, bind. cbn [truthy default id].
  destruct (_load_template (String c n) fs) as [t [e|text]]; reflexivity.
Qed.

Lemma get_prompt_unnamed (template_name template : option string)
    (fs : gmap string node) :
  truthy template_name = false ->
  get_prompt template_name template fs =
  match template with
  | Some (String c t) => ([], inr (prompt_of (String c t)))
  | _ => ([], inl nothing_provided)
  end.
Proof.
  intros Hn. unfold get_prompt, bind. rewrite Hn.
  destruct template as [[|c t]|]; reflexivity.
Qed.

(** * The claims *)

(** ** Placeholder extraction *)

(** C1, as stated, fails: the template [{a], newline, [b}] has one
    brace-delimited span, with inner text [a], newline, [b], and the
    extraction returns no entry for it, because [.] does not match a
    newline. *)
Lemma extract_two_line_span_counterexample :
  brace_spans two_line_span
    = [String "a" (String newline (String "b" EmptyString))]
  /\ _extract_input_variables two_line_span = []
  /\ length (_extract_input_variables two_line_span)
     <> length (brace_spans two_line_span).
Proof. repeat split. cbv. discriminate. Qed.

(** C1, amended: for every template string the placeholder list has
    exactly one entry per brace-delimited span that lies on one line (a
    span runs from an opening brace to the first closing brace after it;
    an opening brace that meets a newline before any closing brace opens
    no span), the inner texts of those spans in left-to-right scan order,
    duplicates and empty names kept; for a template without a newline
    these are all its brace-delimited spans; for [{a}{a}{}] the list is
    [a], [a], empty. *)
Theorem extract_input_variables_spans (template : string) :
  _extract_input_variables template = line_spans template
  /\ length (_extract_input_variables template) = count_line_spans template
  /\ (mem_char newline template = false ->
      _extract_input_variables template = brace_spans template)
  /\ _extract_input_variables "{a}{a}{}" = ["a"; "a"; ""].
Proof.
  rewrite extract_is_line_spans. repeat split.
  - apply (line_scan_length template None).
  - intros Hnl. by apply line_scan_no_newline.
Qed.

Lemma extract_input_variables_spans_witness :
  mem_char newline "{a}{a}{}" = false
  /\ _extract_input_variables "{a}{a}{}" = brace_spans "{a}{a}{}"
  /\ length (_extract_input_variables "{a}{a}{}") = 3.
Proof.
  destruct (extract_input_variables_spans "{a}{a}{}") as (_ & Hlen & Hspans & _).
  split; [reflexivity|]. split; [apply Hspans; reflexivity | exact Hlen].
Defined.

(** C10: the extraction is a total function, it returns a list for every
    input string; an opening brace that no closing brace follows
    contributes no entry: the list is that of the text in front of it. *)
Theorem extract_total_unmatched_open (template : string) :
  (exists placeholders, _extract_input_variables template = placeholders)
  /\ forall p u,
       template = p +:+ String lbrace u ->
       mem_char rbrace u = false ->
       _extract_input_variables template = _extract_input_variables p.
Proof.
  split; [by eexists|].
  intros p u -> Hu. rewrite !extract_is_line_spans.
  apply line_scan_app_no_close. cbn. by rewrite Hu.
Qed.

Lemma extract_total_unmatched_open_witness :
  mem_char rbrace "b c" = false
  /\ _extract_input_variables "{a} {b c" = ["a"].
Proof.
  split; [reflexivity|].
  destruct (extract_total_unmatched_open "{a} {b c") as [_ H].
  rewrite (H "{a} " "b c" eq_refl eq_refl). reflexivity.
Defined.

(** ** Resolution from literal text *)

(** C2, as stated, fails at the empty template string: resolving with
    literal text [""] returns no prompt. *)
Lemma get_prompt_empty_literal_counterexample :
  get_prompt None (Some EmptyString) ∅ = ([], inl nothing_provided)
  /\ ~ returns_prompt_with_text (get_prompt None (Some EmptyString) ∅) EmptyString.
Proof.
  split; [reflexivity|]. intros (p & Hp & _). cbn in Hp. discriminate.
Qed.

(** C2, amended: for every non-empty literal template string [t],
    resolving with literal text [t] and no identifier returns a prompt
    whose stored template text equals [t] exactly, with no normalization
    or substitution applied. *)
Theorem get_prompt_literal_text (t : string) (fs : gmap string node) :
  t <> EmptyString ->
  get_prompt None (Some t) fs = ([], inr (prompt_of t))
  /\ prompt_template_text (prompt_of t) = [t]
  /\ returns_prompt_with_text (get_prompt None (Some t) fs) t.
Proof.
  intros Hne. destruct t as [|c t]; [congruence|].
  rewrite get_prompt_unnamed by reflexivity.
  repeat split. by eexists.
Qed.

Lemma get_prompt_literal_text_witness :
  ("{{a}" : string) <> EmptyString
  /\ get_prompt None (Some "{{a}") ∅ = ([], inr (prompt_of "{{a}"))
  /\ prompt_template_text (prompt_of "{{a}") = ["{{a}"].
Proof.
  split; [discriminate|].
  destruct (get_prompt_literal_text "{{a}" ∅) as (H1 & H2 & _); [discriminate|].
  by split.
Defined.

(** C3: with neither an identifier nor literal text the call raises the
    [ValueError] that says either one must be provided; no prompt is
    produced, and nothing is read or logged. *)
Theorem get_prompt_nothing_supplied (fs : gmap string node) :
  get_prompt None None fs = ([], inl nothing_provided)
  /\ exn_cls nothing_provided = ValueError
  /\ exn_str nothing_provided = "Either template_name or template must be provided."
  /\ forall t, ~ returns_prompt_with_text (get_prompt None None fs) t.
Proof.
  repeat split. intros t (p & Hp & _). cbn in Hp. discriminate.
Qed.

(** C7: an empty-string literal text with no identifier behaves as no
    text at all: the call raises the same [ValueError] and returns no
    prompt. *)
Theorem get_prompt_empty_text_is_absent (fs : gmap string node) :
  get_prompt None (Some EmptyString) fs = get_prompt None None fs
  /\ get_prompt None (Some EmptyString) fs = ([], inl nothing_provided)
  /\ forall t, ~ returns_prompt_with_text (get_prompt None (Some EmptyString) fs) t.
Proof.
  repeat split. intros t (p & Hp & _). cbn in Hp. discriminate.
Qed.

(** ** Resolution from an identifier *)

(** C4, as stated, fails at the empty identifier: with identifier [""],
    whose file holds [from file], and literal text [literal], the prompt
    holds the literal text and the file is not read. *)
Lemma get_prompt_empty_identifier_counterexample :
  fs_unnamed_file "from file" !! template_path_of EmptyString
    = Some (Readable "from file")
  /\ get_prompt (Some EmptyString) (Some "literal") (fs_unnamed_file "from file")
     = ([], inr (prompt_of "literal"))
  /\ ~ returns_prompt_with_text
         (get_prompt (Some EmptyString) (Some "literal") (fs_unnamed_file "from file"))
         "from file".
Proof.
  split; [apply lookup_singleton_eq|]. split; [reflexivity|].
  intros (p & Hp & Ht). cbn in Hp. injection Hp as <-. cbv in Ht. discriminate.
Qed.

(** C4, amended: when a non-empty identifier is supplied, whatever
    literal text comes with it is ignored: the result is the one without
    literal text, and where the identifier's file is readable the prompt
    holds the content of that file. *)
Theorem get_prompt_identifier_precedence (template_name : string)
    (text text' : option string) (fs : gmap string node) :
  template_name <> EmptyString ->
  get_prompt (Some template_name) text fs = get_prompt (Some template_name) text' fs
  /\ forall content,
       fs !! template_path_of template_name = Some (Readable content) ->
       returns_prompt_with_text (get_prompt (Some template_name) text fs) content.
Proof.
  intros Hne. split; [by rewrite !get_prompt_named|].
  intros content Hc. rewrite get_prompt_named, load_template_eq by done.
  cbn zeta. rewrite Hc. by eexists.
Qed.

Lemma get_prompt_identifier_precedence_witness :
  ("greet" : string) <> EmptyString
  /\ get_prompt (Some "greet") (Some "literal")
       {[ template_path_of "greet" := Readable "from file" ]}
     = get_prompt (Some "greet") None
         {[ template_path_of "greet" := Readable "from file" ]}
  /\ returns_prompt_with_text
       (get_prompt (Some "greet") (Some "literal")
          {[ template_path_of "greet" := Readable "from file" ]})
       "from file".
Proof.
  split; [discriminate|].
  destruct (get_prompt_identifier_precedence "greet" (Some "literal") None
              {[ template_path_of "greet" := Readable "from file" ]})
    as [H1 H2]; [discriminate|].
  split; [exact H1|]. apply H2. apply lookup_singleton_eq.
Defined.

(** C5: the load fails with [FileNotFoundError] when the computed path
    does not exist, and with the exception of the read for every other
    read failure; in both cases the file is opened once, one error record
    is logged, and the same exception is raised to the caller, which
    [get_prompt] passes on with nothing added. *)
Theorem load_template_failures (template_name : string) (fs : gmap string node) :
  let path := template_path_of template_name in
  (fs !! path = None ->
   _load_template template_name fs
   = ([EvOpen path; EvLog ERROR ("Template file not found: " +:+ path)],
      inl (file_not_found path))
   /\ exn_cls (file_not_found path) = FileNotFoundError)
  /\ (forall e, fs !! path = Some (Unreadable e) ->
      _load_template template_name fs
      = ([EvOpen path; EvLog ERROR (load_error_message template_name e)], inl e)
      /\ (exn_cls e <> FileNotFoundError ->
          load_error_message template_name e
          = "Error loading template " +:+ template_name +:+ ": " +:+ exn_str e))
  /\ (forall e text,
      snd (_load_template template_name fs) = inl e ->
      template_name <> EmptyString ->
      get_prompt (Some template_name) text fs
      = (fst (_load_template template_name fs), inl e)
      /\ opened_paths (fst (_load_template template_name fs)) = [path]
      /\ length (error_logs (fst (_load_template template_name fs))) = 1).
Proof.
  intros path. subst path. split; [|split].
  - intros Hnone. rewrite load_template_eq. cbv zeta. by rewrite Hnone.
  - intros e He. rewrite load_template_eq. cbv zeta. rewrite He.
    split; [reflexivity|]. intros Hcls. unfold load_error_message.
    by destruct (decide (exn_cls e = FileNotFoundError)).
  - intros e text He Hne. rewrite get_prompt_named by done.
    rewrite load_template_eq in He |- *. cbv zeta in He |- *.
    destruct (fs !! template_path_of template_name) as [[content|e']|];
      cbn in He; [discriminate| |]; injection He as <-; by repeat split.
Qed.

Lemma load_template_failures_witness :
  (∅ : gmap string node) !! template_path_of "missing" = None
  /\ snd (_load_template "missing" ∅)
     = inl (file_not_found "templates/template_missing.txt")
  /\ ({[ template_path_of "locked" := Unreadable permission_denied ]}
        : gmap string node) !! template_path_of "locked"
     = Some (Unreadable permission_denied)
  /\ _load_template "locked"
       {[ template_path_of "locked" := Unreadable permission_denied ]}
     = ([EvOpen "templates/template_locked.txt";
         EvLog ERROR ("Error loading template locked: " +:+ exn_str permission_denied)],
        inl permission_denied)
  /\ get_prompt (Some "missing") None ∅
     = (fst (_load_template "missing" ∅),
        inl (file_not_found "templates/template_missing.txt")).
Proof.
  destruct (load_template_failures "missing" ∅) as (H1 & _ & H3).
  destruct (load_template_failures "locked"
              {[ template_path_of "locked" := Unreadable permission_denied ]})
    as (_ & H2 & _).
  split; [apply lookup_empty|].
  split; [destruct (H1 (lookup_empty _)) as [-> _]; reflexivity|].
  split; [apply lookup_singleton_eq|].
  split.
  - destruct (H2 permission_denied (lookup_singleton_eq _ _)) as [-> Hm].
    rewrite Hm by discriminate. reflexivity.
  - destruct (H3 (file_not_found "templates/template_missing.txt") None)
      as (H & _ & _); [|discriminate|exact H].
    destruct (H1 (lookup_empty _)) as [-> _]. reflexivity.
Defined.

(** C6: for every identifier the load computes the path by joining the
    templates root with [template_<id>.txt], opens exactly the file at
    that path, once, and returns the whole content of a readable file as
    the template text. *)
Theorem load_template_reads_template_file (template_name : string)
    (fs : gmap string node) :
  os_path_join TEMPLATES_ROOT_PATH ("template_" +:+ template_name +:+ ".txt")
  = "templates/template_" +:+ template_name +:+ ".txt"
  /\ opened_paths (fst (_load_template template_name fs))
     = ["templates/template_" +:+ template_name +:+ ".txt"]
  /\ forall content,
       fs !! ("templates/template_" +:+ template_name +:+ ".txt")
         = Some (Readable content) ->
       snd (_load_template template_name fs) = inr content.
Proof.
  split; [reflexivity|]. rewrite load_template_eq. cbv zeta.
  change (template_path_of template_name)
    with ("templates/template_" +:+ template_name +:+ ".txt").
  split.
  - by destruct (fs !! _) as [[content|e]|].
  - intros content Hc. by rewrite Hc.
Qed.

Lemma load_template_reads_template_file_witness :
  ({[ "templates/template_a/b.txt" := Readable "x {y}" ]} : gmap string node)
    !! ("templates/template_" +:+ "a/b" +:+ ".txt") = Some (Readable "x {y}")
  /\ snd (_load_template "a/b" {[ "templates/template_a/b.txt" := Readable "x {y}" ]})
     = inr "x {y}".
Proof.
  split; [apply lookup_singleton_eq|].
  destruct (load_template_reads_template_file "a/b"
              {[ "templates/template_a/b.txt" := Readable "x {y}" ]})
    as (_ & _ & H).
  apply H. apply lookup_singleton_eq.
Defined.

(** C8, as stated, fails at the empty identifier: its backing file holds
    the greeting, and the call raises the [ValueError] instead of
    returning a prompt. *)
Lemma get_prompt_greeting_counterexample :
  fs_unnamed_file greeting !! template_path_of EmptyString = Some (Readable greeting)
  /\ get_prompt (Some EmptyString) None (fs_unnamed_file greeting)
     = ([], inl nothing_provided)
  /\ ~ returns_prompt_with_text
         (get_prompt (Some EmptyString) None (fs_unnamed_file greeting)) greeting.
Proof.
  split; [apply lookup_singleton_eq|]. split; [reflexivity|].
  intros (p & Hp & _). cbn in Hp. discriminate.
Qed.

(** C8, amended: given a non-empty identifier whose backing file
    contains the greeting, the call returns a prompt whose template text
    is the greeting and whose placeholder list is [name], [place]. *)
Theorem get_prompt_greeting (template_name : string) (text : option string)
    (fs : gmap string node) :
  template_name <> EmptyString ->
  fs !! template_path_of template_name = Some (Readable greeting) ->
  exists p,
    snd (get_prompt (Some template_name) text fs) = inr p
    /\ prompt_template_text p = ["Hello {name}, welcome to {place}!"]
    /\ prompt_placeholders p = [["name"; "place"]].
Proof.
  intros Hne Hfile. rewrite get_prompt_named, load_template_eq by done.
  cbv zeta. rewrite Hfile. by eexists.
Qed.

Lemma get_prompt_greeting_witness :
  ("greeting" : string) <> EmptyString
  /\ ({[ template_path_of "greeting" := Readable greeting ]} : gmap string node)
       !! template_path_of "greeting" = Some (Readable greeting)
  /\ exists p,
       snd (get_prompt (Some "greeting") None
              {[ template_path_of "greeting" := Readable greeting ]}) = inr p
       /\ prompt_template_text p = ["Hello {name}, welcome to {place}!"]
       /\ prompt_placeholders p = [["name"; "place"]].
Proof.
  split; [discriminate|]. split; [apply lookup_singleton_eq|].
  apply get_prompt_greeting; [discriminate | apply lookup_singleton_eq].
Defined.

(** C9: with the empty string as identifier and a non-empty literal
    text, the call behaves as with no identifier: the prompt holds the
    literal text, and no file is opened. *)
Theorem get_prompt_empty_identifier_uses_text (text : string)
    (fs : gmap string node) :
  text <> EmptyString ->
  get_prompt (Some EmptyString) (Some text) fs = ([], inr (prompt_of text))
  /\ get_prompt (Some EmptyString) (Some text) fs = get_prompt None (Some text) fs
  /\ opened_paths (fst (get_prompt (Some EmptyString) (Some text) fs)) = []
  /\ returns_prompt_with_text (get_prompt (Some EmptyString) (Some text) fs) text.
Proof.
  intros Hne. destruct text as [|c t]; [congruence|].
  rewrite !get_prompt_unnamed by reflexivity. repeat split. by eexists.
Qed.

Lemma get_prompt_empty_identifier_uses_text_witness :
  ("Dear {who}" : string) <> EmptyString
  /\ get_prompt (Some EmptyString) (Some "Dear {who}") (fs_unnamed_file "from file")
     = ([], inr (prompt_of "Dear {who}")).
Proof.
  split; [discriminate|].
  destruct (get_prompt_empty_identifier_uses_text "Dear {who}"
              (fs_unnamed_file "from file")) as [H _]; [discriminate|exact H].
Defined.

(** * Further properties of the module *)

(** ** More about the scans *)

Lemma mem_char_app (c : ascii) (a b : string) :
  mem_char c (a +:+ b) = mem_char c a || mem_char c b.
Proof.
  induction a as [|x a IH]; [reflexivity|].
  rewrite string_app_cons. cbn [mem_char]. by rewrite IH, orb_assoc.
Qed.

Lemma until_close_app (name rest : string) :
  mem_char rbrace name = false ->
  mem_char newline name = false ->
  until_close (name +:+ String rbrace rest) = Some (name, rest).
Proof.
  induction name as [|c name IH]; intros Hr Hn.
  - reflexivity.
  - cbn in Hr, Hn. apply orb_false_iff in Hr as [Hr1 Hr2].
    apply orb_false_iff in Hn as [Hn1 Hn2].
    rewrite string_app_cons. cbn [until_close]. by rewrite Hr1, Hn1, IH.
Qed.

Lemma line_scan_skip_literal (lit r : string) :
  mem_char lbrace lit = false ->
  line_scan None (lit +:+ r) = line_scan None r.
Proof.
  induction lit as [|c lit IH]; intros H; [reflexivity|].
  cbn in H. apply orb_false_iff in H as [Hc Hl].
  rewrite string_app_cons. cbn [line_scan]. rewrite Hc. by apply IH.
Qed.

Lemma line_scan_newline (a b : string) (st : option string) :
  line_scan st (a +:+ String newline b) = line_scan st a ++ line_scan None b.
Proof.
  revert st. induction a as [|c a IH]; intros st.
  - rewrite string_app_nil_l. by destruct st.
  - rewrite string_app_cons. cbn [line_scan].
    destruct st; repeat case_match; by rewrite IH.
Qed.

Lemma line_scan_clean (s : string) (st : option string) :
  (forall inner, st = Some inner ->
     mem_char rbrace inner = false /\ mem_char newline inner = false) ->
  forall p, In p (line_scan st s) ->
    mem_char rbrace p = false /\ mem_char newline p = false.
Proof.
  revert st. induction s as [|c s IH]; intros st Hst p Hin; [destruct Hin|].
  cbn [line_scan] in Hin. destruct st as [inner|].
  - destruct (Ascii.eqb c rbrace) eqn:Hr.
    + destruct Hin as [<-|Hin]; [by apply Hst|].
      by apply (IH None).
    + destruct (Ascii.eqb c newline) eqn:Hn.
      * by apply (IH None).
      * apply (IH (Some (snoc inner c))); [|done].
        intros ? [= <-]. destruct (Hst inner eq_refl) as [H1 H2].
        unfold snoc. rewrite !mem_char_app, H1, H2. cbn. by rewrite Hr, Hn.
  - destruct (Ascii.eqb c lbrace).
    + apply (IH (Some EmptyString)); [|done]. by intros ? [= <-].
    + by apply (IH None).
Qed.

Lemma snoc_length (s : string) (c : ascii) :
  String.length (snoc s c) = S (String.length s).
Proof. unfold snoc. rewrite string_app_length. cbn. lia. Qed.

Lemma line_scan_budget (s : string) (st : option string) :
  total_length (line_scan st s) + 2 * length (line_scan st s)
  <= String.length s + pending st.
Proof.
  revert st. induction s as [|c s IH]; intros st; [cbn; lia|].
  cbn [line_scan String.length]. destruct st as [inner|]; cbn [pending].
  - destruct (Ascii.eqb c rbrace).
    + specialize (IH None). cbn [total_length length pending] in *. lia.
    + destruct (Ascii.eqb c newline).
      * specialize (IH None). cbn [pending] in IH. lia.
      * specialize (IH (Some (snoc inner c))). cbn [pending] in IH.
        rewrite snoc_length in IH. lia.
  - destruct (Ascii.eqb c lbrace).
    + specialize (IH (Some EmptyString)). cbn in IH. lia.
    + specialize (IH None). cbn [pending] in IH. lia.
Qed.

Lemma line_scan_no_open (s : string) :
  mem_char lbrace s = false -> line_scan None s = [].
Proof.
  intros H. rewrite <- (string_app_nil_r s). by rewrite line_scan_skip_literal.
Qed.


(** ** Extraction *)

(** X1: extraction inverts the layout of a flat template. For literal
    segments without an opening brace and names without a closing brace
    or a newline, the placeholders of [lit1 {name1} ... litn {namen} tail]
    are exactly [name1, ..., namen]. *)
Theorem extract_flat_template (parts : list (string * string)) (tail : string) :
  flat_parts_ok parts tail = true ->
  _extract_input_variables (flat_template parts tail) = map snd parts.
Proof.
  rewrite extract_is_line_spans. unfold line_spans, flat_parts_ok.
  intros H. apply andb_prop in H as [Hparts Htail].
  apply negb_true_iff in Htail.
  induction parts as [|[lit name] parts IH]; cbn [flat_template map snd].
  - by apply line_scan_no_open.
  - cbn [forallb fst snd] in Hparts.
    apply andb_prop in Hparts as [Hpart Hparts].
    apply andb_prop in Hpart as [Hpart Hnl].
    apply andb_prop in Hpart as [Hlit Hclose].
    apply negb_true_iff in Hlit, Hclose, Hnl.
    rewrite (line_scan_skip_literal _ _ Hlit).
    change (line_scan None (String lbrace ?r)) with (line_scan (Some EmptyString) r).
    rewrite (line_scan_close _ _ _ (until_close_app _ _ Hclose Hnl)).
    rewrite string_app_nil_l. f_equal. by apply IH.
Qed.

Lemma extract_flat_template_witness :
  flat_parts_ok [("Hello ", "name"); (", welcome to ", "place")] "!" = true
  /\ flat_template [("Hello ", "name"); (", welcome to ", "place")] "!" = greeting
  /\ _extract_input_variables
       (flat_template [("Hello ", "name"); (", welcome to ", "place")] "!")
     = ["name"; "place"].
Proof.
  split; [reflexivity|]. split; [reflexivity|].
  apply (extract_flat_template [("Hello ", "name"); (", welcome to ", "place")] "!").
  reflexivity.
Defined.

(** X2: no placeholder holds a closing brace or a newline (it may hold
    an opening brace). *)
Theorem extract_entries_clean (template p : string) :
  In p (_extract_input_variables template) ->
  mem_char rbrace p = false /\ mem_char newline p = false.
Proof.
  rewrite extract_is_line_spans. apply line_scan_clean. by intros ? [=].
Qed.

Lemma extract_entries_clean_witness :
  In "{a" (_extract_input_variables "{{a}} {b")
  /\ mem_char rbrace "{a" = false /\ mem_char newline "{a" = false.
Proof.
  assert (H : In "{a" (_extract_input_variables "{{a}} {b")) by (left; reflexivity).
  split; [exact H|]. exact (extract_entries_clean "{{a}} {b" "{a" H).
Defined.

(** X3: the spans found do not overlap: the placeholders together with
    two braces each fit into the template. *)
Theorem extract_spans_fit (template : string) :
  total_length (_extract_input_variables template)
  + 2 * length (_extract_input_variables template)
  <= String.length template.
Proof.
  rewrite extract_is_line_spans.
  pose proof (line_scan_budget template None) as H. cbn [pending] in H.
  unfold line_spans. lia.
Qed.

(** X4: extraction works line by line: the placeholders of two texts
    joined by a newline are those of the first followed by those of the
    second. *)
Theorem extract_line_by_line (a b : string) :
  _extract_input_variables (a +:+ String newline b)
  = _extract_input_variables a ++ _extract_input_variables b.
Proof. rewrite !extract_is_line_spans. apply line_scan_newline. Qed.

(** X5: a template without an opening brace, or without a closing
    brace, has no placeholder. *)
Theorem extract_without_braces (template : string) :
  mem_char lbrace template && mem_char rbrace template = false ->
  _extract_input_variables template = [].
Proof.
  rewrite extract_is_line_spans. intros H.
  apply andb_false_iff in H as [H|H].
  - by apply line_scan_no_open.
  - by apply line_scan_no_close.
Qed.

Lemma extract_without_braces_witness :
  mem_char lbrace "a } b" && mem_char rbrace "a } b" = false
  /\ _extract_input_variables "a } b" = [].
Proof.
  split; [reflexivity|]. apply (extract_without_braces "a } b"). reflexivity.
Defined.

(** X6: the pattern matches at the start of a text exactly when the text
    opens with a brace, some text free of closing braces and newlines,
    and a closing brace; the match is these characters and group 1 is the
    text between the braces. A match is never empty. *)
Theorem pattern_match_shape (s : string) (n : nat) (caps : list string) :
  re_match pattern s = Some (n, caps) <->
  exists inner rest,
    s = String lbrace (inner +:+ String rbrace rest)
    /\ mem_char rbrace inner = false /\ mem_char newline inner = false
    /\ n = 2 + String.length inner /\ caps = [inner].
Proof.
  rewrite re_match_pattern. split.
  - destruct s as [|c s1]; [discriminate|].
    destruct (Ascii.eqb c lbrace) eqn:Hc; [|discriminate].
    apply Ascii.eqb_eq in Hc. subst c.
    destruct (until_close s1) as [[inner rest]|] eqn:Hu; [|discriminate].
    intros [= <- <-]. apply until_close_split in Hu as (-> & H1 & H2).
    by exists inner, rest.
  - intros (inner & rest & -> & H1 & H2 & -> & ->).
    change (Ascii.eqb lbrace lbrace) with true. cbv iota.
    by rewrite until_close_app.
Qed.

Lemma pattern_match_shape_witness :
  re_match pattern "{ab}c" = Some (4, ["ab"])
  /\ exists inner rest,
       "{ab}c" = String lbrace (inner +:+ String rbrace rest)
       /\ mem_char rbrace inner = false /\ mem_char newline inner = false
       /\ 4 = 2 + String.length inner /\ ["ab"] = [inner].
Proof.
  split; [reflexivity|].
  apply (proj1 (pattern_match_shape "{ab}c" 4 ["ab"])). reflexivity.
Defined.

(** ** Loading and resolution *)



(** X8: a load logs one record: an information record when it returns
    the content, an error record when it raises; and it opens its file
    once in both cases. *)
Theorem load_template_logs (template_name : string) (fs : gmap string node) :
  let r := _load_template template_name fs in
  length (info_logs (fst r)) = (if succeeds r then 1 else 0)
  /\ length (error_logs (fst r)) = (if succeeds r then 0 else 1)
  /\ length (opened_paths (fst r)) = 1
  /\ (succeeds r = true ->
      info_logs (fst r)
      = ["Template " +:+ template_name +:+ " loaded successfully."]).
Proof.
  cbv zeta. rewrite load_template_eq. cbv zeta.
  by destruct (fs !! template_path_of template_name) as [[content|e]|].
Qed.

Lemma load_template_logs_witness :
  succeeds (_load_template "greeting"
              {[ template_path_of "greeting" := Readable greeting ]}) = true
  /\ info_logs (fst (_load_template "greeting"
                       {[ template_path_of "greeting" := Readable greeting ]}))
     = ["Template greeting loaded successfully."].
Proof.
  assert (H : succeeds (_load_template "greeting"
                {[ template_path_of "greeting" := Readable greeting ]}) = true).
  { rewrite load_template_eq. cbv zeta. by rewrite lookup_singleton_eq. }
  split; [exact H|].
  destruct (load_template_logs "greeting"
              {[ template_path_of "greeting" := Readable greeting ]})
    as (_ & _ & _ & Hinfo).
  rewrite (Hinfo H). reflexivity.
Defined.




(** X11: [get_prompt] opens no file and logs nothing unless the
    identifier is non-empty; with a non-empty identifier it opens the
    template file of that identifier and nothing else, whatever the
    literal text and whatever the outcome, and logs one record. *)
Theorem get_prompt_file_access (template_name template : option string)
    (fs : gmap string node) :
  if truthy template_name
  then exists lvl msg,
         fst (get_prompt template_name template fs)
         = [EvOpen (template_path_of (default EmptyString template_name));
            EvLog lvl msg]
  else fst (get_prompt template_name template fs) = [].
Proof.
  destruct (truthy template_name) eqn:Hn.
  - destruct template_name as [[|c n]|]; try discriminate.
    rewrite get_prompt_named, load_template_eq by done. cbv zeta. cbn [default id].
    destruct (fs !! template_path_of (String c n)) as [[content|e]|]; by eexists _, _.
  - rewrite get_prompt_unnamed by done. by destruct template as [[|c t]|].
Qed.

(** X12: the result depends on the file system only through the
    template file of the identifier: two file systems that agree there
    give the same trace and the same result. *)
Theorem get_prompt_depends_on_template_file (template_name template : option string)
    (fs fs' : gmap string node) :
  fs !! template_path_of (default EmptyString template_name)
  = fs' !! template_path_of (default EmptyString template_name) ->
  get_prompt template_name template fs = get_prompt template_name template fs'.
Proof.
  intros Hagree. destruct (truthy template_name) eqn:Hn.
  - destruct template_name as [[|c n]|]; try discriminate.
    rewrite !get_prompt_named, !load_template_eq by done. cbv zeta.
    cbn [default id] in Hagree. by rewrite Hagree.
  - by rewrite !get_prompt_unnamed.
Qed.

Lemma get_prompt_depends_on_template_file_witness :
  ({[ template_path_of "a" := Readable "{x}" ]} : gmap string node)
    !! template_path_of (default EmptyString (Some "a"))
  = (<[ template_path_of "b" := Readable "{y}" ]>
       {[ template_path_of "a" := Readable "{x}" ]} : gmap string node)
      !! template_path_of (default EmptyString (Some "a"))
  /\ get_prompt (Some "a") None {[ template_path_of "a" := Readable "{x}" ]}
     = get_prompt (Some "a") None
         (<[ template_path_of "b" := Readable "{y}" ]>
            {[ template_path_of "a" := Readable "{x}" ]}).
Proof.
  assert (H : ({[ template_path_of "a" := Readable "{x}" ]} : gmap string node)
                !! template_path_of (default EmptyString (Some "a"))
              = (<[ template_path_of "b" := Readable "{y}" ]>
                   {[ template_path_of "a" := Readable "{x}" ]} : gmap string node)
                  !! template_path_of (default EmptyString (Some "a"))).
  { rewrite lookup_insert_ne by discriminate. reflexivity. }
  split; [exact H|].
  exact (get_prompt_depends_on_template_file (Some "a") None _ _ H).
Defined.

(** X13: a template read from a file gives the prompt that the same
    text gives as literal text; only the empty text differs: an empty
    template file is accepted and gives a prompt without placeholders,
    an empty literal text is rejected. *)
Theorem get_prompt_file_like_literal (template_name content : string)
    (fs fs' : gmap string node) :
  template_name <> EmptyString ->
  fs !! template_path_of template_name = Some (Readable content) ->
  snd (get_prompt (Some template_name) None fs) = inr (prompt_of content)
  /\ (content <> EmptyString ->
      snd (get_prompt None (Some content) fs')
      = snd (get_prompt (Some template_name) None fs))
  /\ (content = EmptyString ->
      prompt_placeholders (prompt_of content) = [[]]
      /\ snd (get_prompt None (Some content) fs') = inl nothing_provided).
Proof.
  intros Hne Hfile. rewrite get_prompt_named, load_template_eq by done.
  cbv zeta. rewrite Hfile. split; [reflexivity|]. split.
  - intros Hc. destruct content as [|c t]; [congruence|].
    by rewrite get_prompt_unnamed.
  - by intros ->.
Qed.

Lemma get_prompt_file_like_literal_witness :
  ("blank" : string) <> EmptyString
  /\ ({[ template_path_of "blank" := Readable EmptyString ]} : gmap string node)
       !! template_path_of "blank" = Some (Readable EmptyString)
  /\ snd (get_prompt (Some "blank") None
            {[ template_path_of "blank" := Readable EmptyString ]})
     = inr (prompt_of EmptyString)
  /\ snd (get_prompt None (Some EmptyString) ∅) = inl nothing_provided.
Proof.
  destruct (get_prompt_file_like_literal "blank" EmptyString
              {[ template_path_of "blank" := Readable EmptyString ]} ∅)
    as (H1 & _ & H3); [discriminate | apply lookup_singleton_eq |].
  split; [discriminate|]. split; [apply lookup_singleton_eq|].
  split; [exact H1|]. by destruct (H3 eq_refl).
Defined.
